(** * The CEM grpc4bmi server entry point

    A shallow embedding of [server/cem-grpc4bmi-server.cxx].  The whole
    first-party program is [main]: it prints a banner, allocates a [Bmi]
    handle, lets the CEM library bind its callbacks, queries and prints the
    component name through the handle, hands the handle and the process
    arguments to the grpc4bmi server loop and, once that returns, frees the
    handle and returns 0.

    Everything [main] calls lives outside the repository (libc, the CEM
    library, grpc4bmi).  Those collaborators are gathered in the record
    [Extern]; [main] is written once, over an arbitrary [Extern], in a small
    state-and-fault monad whose state holds the heap of [Bmi] objects and the
    trace of calls made so far. *)

From Stdlib Require Import ZArith List Lia.
From Stdlib.Strings Require Import Byte.
From stdpp Require Import base option list gmap.

Import ListNotations.

(** ** Pointers, callback slots, the handle *)

(** Object pointers are addresses, [NULL] is 0. *)
Abbreviation ptr := Z (only parsing).
Definition NULL : ptr := 0%Z.

(** A function pointer is the address of code in a linked library. *)
Abbreviation fnptr := positive (only parsing).

(** What a callback slot of the handle may hold: the bits [malloc] left
    there, a null pointer, or the address of an implementation. *)
Inductive Slot : Type :=
| Indeterminate
| NullFn
| Fn (f : fnptr).

Definition bound (s : Slot) : bool :=
  match s with
  | Fn _ => true
  | Indeterminate | NullFn => false
  end.

(** The handle.  [bmi.h] is not part of the repository: the one slot [main]
    names is a field of its own, the remaining operations of the uniform
    interface are indexed by a type [Op] left open. *)
Record Bmi (Op : Type) : Type := MkBmi {
  get_component_name : Slot;
  slot : Op -> Slot
}.
Arguments MkBmi {Op} _ _.
Arguments get_component_name {Op} _.
Arguments slot {Op} _ _.

(** The object [malloc] hands out: nothing in it has been written yet. *)
Definition uninitialised {Op : Type} : Bmi Op :=
  MkBmi Indeterminate (fun _ => Indeterminate).

Definition newline : byte := x0a.
Definition NUL : byte := x00.

(** The literal of the first [printf]: "CEM grpc4bmi server\n". *)
Definition banner : list byte :=
  [x43; x45; x4d; x20; x67; x72; x70; x63; x34; x62; x6d; x69; x20;
   x73; x65; x72; x76; x65; x72; newline].

(** ** Reading a C string out of a character array *)

(** [printf("%s", buf)] walks [buf] up to the first NUL.  A cell that was
    never written ([None]) or the end of the array reached before a NUL
    makes the read undefined. *)
Fixpoint read_cstring (buf : list (option byte)) : option (list byte) :=
  match buf with
  | [] => None
  | None :: _ => None
  | Some b :: rest =>
      if Byte.eqb b NUL then Some []
      else match read_cstring rest with
           | Some s => Some (b :: s)
           | None => None
           end
  end.

(** A callee that is handed [char buf[cap]] writes [w] from the start of the
    array; it fits only when [w] is no longer than the array. *)
Definition write_buffer (cap : nat) (w : list byte) : option (list (option byte)) :=
  if (length w <=? cap)%nat
  then Some (map Some w ++ replicate (cap - length w) None)
  else None.

Section Adapter.

Context {Op : Type}.

Abbreviation Heap := (gmap Z (Bmi Op)).

(** ** Observable steps *)

Inductive Event : Type :=
| Printf (s : list byte)
| Malloc (size : Z) (p : ptr)
| RegisterBmiCem (model : ptr)
| GetComponentName (model : ptr) (f : fnptr)
| RunBmiServer (model : ptr) (argc : Z) (argv : list (list byte)) (h : Heap)
| ServerReturned (status : Z)
| Free (p : ptr).

Record World : Type := MkWorld {
  heap : Heap;
  trace : list Event
}.

Definition initial : World := MkWorld ∅ [].

(** ** What the linked libraries do *)

(** Result of a call through a [get_component_name] slot: the status it
    returns, the bytes it stored from the start of the buffer it was given,
    and the heap it leaves. *)
Record NameCall : Type := MkNameCall {
  nc_status : Z;
  nc_written : list byte;
  nc_heap : Heap
}.

(** What the call of the server loop can come to: it returns; it never
    comes back (it is still serving when the process is ended from outside);
    or the loop itself ends the process with a status, by [exit] or by an
    abnormal end ([abort], an exception that leaves the loop: [main] has no
    handler, so it ends the process the same way). *)
Inductive ServerOutcome : Type :=
| ServerReturns (status : Z) (h : Heap)
| ServerNeverReturns
| ServerEndsProcess (status : Z).

Record Extern : Type := MkExtern {
  (** the macro of [bmi.h] *)
  BMI_MAX_COMPONENT_NAME : nat;
  (** [sizeof(Bmi)] *)
  sizeof_Bmi : Z;
  (** libc: the address [malloc] answers with, [NULL] when it fails *)
  ext_malloc : Z -> ptr;
  (** the CEM library's registrar; [None] when it faults *)
  ext_register_bmi_cem : ptr -> Heap -> option Heap;
  (** the code behind a function pointer called as [int f(Bmi *, char * )] *)
  ext_call : fnptr -> ptr -> Heap -> NameCall;
  (** grpc4bmi's server loop *)
  ext_run_bmi_server : ptr -> Z -> list (list byte) -> Heap -> ServerOutcome
}.

(** ** The monad *)

Inductive Fault : Type :=
| NullDereference
| InvalidDereference
| CallThroughUnboundSlot
| RegistrarFault
| BufferOverrun
| UnterminatedRead
| InvalidFree.

Inductive Halt : Type :=
| Faulted (f : Fault)
| NoReturnFromServer
| EndedByServer (status : Z).

Inductive Res (A : Type) : Type :=
| Done (a : A) (w : World)
| Stopped (why : Halt) (w : World).
Arguments Done {A} _ _.
Arguments Stopped {A} _ _.

Definition M (A : Type) : Type := World -> Res A.

#[local] Instance M_ret : MRet M := fun A a w => Done a w.
#[local] Instance M_bind : MBind M := fun A B f m w =>
  match m w with
  | Done a w' => f a w'
  | Stopped why w' => Stopped why w'
  end.

Definition emit (e : Event) : M unit :=
  fun w => Done tt (MkWorld (heap w) (trace w ++ [e])).
Definition get_heap : M Heap := fun w => Done (heap w) w.
Definition put_heap (h : Heap) : M unit :=
  fun w => Done tt (MkWorld h (trace w)).
Definition fault {A : Type} (f : Fault) : M A :=
  fun w => Stopped (Faulted f) w.
Definition never_returns {A : Type} : M A :=
  fun w => Stopped NoReturnFromServer w.
Definition ends_process {A : Type} (status : Z) : M A :=
  fun w => Stopped (EndedByServer status) w.

Section Program.

Variable ext : Extern.

(** ** The calls [main] makes *)

Definition printf (s : list byte) : M unit := emit (Printf s).

Definition malloc (size : Z) : M ptr :=
  let p := ext_malloc ext size in
  emit (Malloc size p) ;;
  if (p =? NULL)%Z then mret p
  else h ← get_heap; put_heap (<[p := uninitialised]> h) ;; mret p.

Definition register_bmi_cem (model : ptr) : M unit :=
  emit (RegisterBmiCem model) ;;
  h ← get_heap;
  match ext_register_bmi_cem ext model h with
  | Some h' => put_heap h'
  | None => fault RegistrarFault
  end.

(** [model->get_component_name]: the load of the slot through the handle. *)
Definition load_get_component_name (model : ptr) : M Slot :=
  if (model =? NULL)%Z then fault NullDereference
  else h ← get_heap;
       match h !! model with
       | Some b => mret (get_component_name b)
       | None => fault InvalidDereference
       end.

(** [s(model, model_name)] with [char model_name[cap]]: the callee gets the
    handle and the start of the array, and no capacity. *)
Definition call_slot (s : Slot) (model : ptr) (cap : nat) : M (list (option byte)) :=
  match s with
  | Fn f =>
      emit (GetComponentName model f) ;;
      h ← get_heap;
      let r := ext_call ext f model h in
      put_heap (nc_heap r) ;;
      match write_buffer cap (nc_written r) with
      | Some buf => mret buf
      | None => fault BufferOverrun
      end
  | Indeterminate | NullFn => fault CallThroughUnboundSlot
  end.

(** [printf("%s\n", buf)] *)
Definition printf_line (buf : list (option byte)) : M unit :=
  match read_cstring buf with
  | Some s => printf (s ++ [newline])
  | None => fault UnterminatedRead
  end.

Definition run_bmi_server (model : ptr) (argc : Z) (argv : list (list byte)) : M Z :=
  h ← get_heap;
  emit (RunBmiServer model argc argv h) ;;
  match ext_run_bmi_server ext model argc argv h with
  | ServerReturns status h' => put_heap h' ;; emit (ServerReturned status) ;; mret status
  | ServerNeverReturns => never_returns
  | ServerEndsProcess status => ends_process status
  end.

Definition free (p : ptr) : M unit :=
  emit (Free p) ;;
  if (p =? NULL)%Z then mret tt
  else h ← get_heap;
       match h !! p with
       | Some _ => put_heap (delete p h)
       | None => fault InvalidFree
       end.

(** ** [main] *)

Definition main (argc : Z) (argv : list (list byte)) : M Z :=
  printf banner ;;
  model ← malloc (sizeof_Bmi ext);
  register_bmi_cem model ;;
  (model_name ← (f ← load_get_component_name model;
                 call_slot f model (BMI_MAX_COMPONENT_NAME ext));
   printf_line model_name) ;;
  run_bmi_server model argc argv ;;
  free model ;;
  mret 0%Z.

(** The process: [main] entered in the initial world. *)
Definition run (argc : Z) (argv : list (list byte)) : Res Z :=
  main argc argv initial.

End Program.

(** What a run leaves behind, whichever way it ended. *)
Definition final {A : Type} (r : Res A) : World :=
  match r with
  | Done _ w => w
  | Stopped _ w => w
  end.

(** The adapter's own output: the payloads of its [printf] calls, in order. *)
Fixpoint printed (t : list Event) : list (list byte) :=
  match t with
  | [] => []
  | Printf s :: t' => s :: printed t'
  | _ :: t' => printed t'
  end.

(** A handle all of whose callback slots hold an implementation. *)
Definition fully_bound (b : Bmi Op) : Prop :=
  bound (get_component_name b) = true /\ forall o : Op, bound (slot b o) = true.

(** ** The CEM library, as the specification describes it *)

(** Modelled from the spec: [register_bmi_cem], the Registrar of the CEM
    library ([cem/bmi_cem.h] and its implementation are not in the
    repository).  Given a handle it stores, through the handle, a pointer to
    the model's implementation into every callback slot of the uniform
    interface; it allocates nothing and signals nothing.  [name_impl] and
    [impl] are the addresses of the library's implementations. *)
Definition cem_register_bmi_cem (name_impl : fnptr) (impl : Op -> fnptr)
    (model : ptr) (h : Heap) : option Heap :=
  match h !! model with
  | Some _ => Some (<[model := MkBmi (Fn name_impl) (fun o => Fn (impl o))]> h)
  | None => None
  end.

(** Modelled from the spec: the CEM implementation behind the
    [get_component_name] slot.  The component name is static metadata: the
    callback copies the model's declared name constant, terminator
    included, to the caller's buffer, reports success and leaves the handle
    alone. *)
Definition cem_get_component_name (declared : list byte)
    (model : ptr) (h : Heap) : NameCall :=
  MkNameCall 0 (declared ++ [NUL]) h.

(** An environment whose CEM library is the one modelled above; libc, the
    header constants and the server loop stay those of [ext]. *)
Definition with_cem (declared : list byte) (name_impl : fnptr)
    (impl : Op -> fnptr) (ext : Extern) : Extern :=
  MkExtern (BMI_MAX_COMPONENT_NAME ext) (sizeof_Bmi ext) (ext_malloc ext)
    (cem_register_bmi_cem name_impl impl)
    (fun f => if Pos.eqb f name_impl
              then cem_get_component_name declared
              else ext_call ext f)
    (ext_run_bmi_server ext).

End Adapter.

Arguments Event : clear implicits.
Arguments World : clear implicits.
Arguments Extern : clear implicits.
Arguments NameCall : clear implicits.
Arguments ServerOutcome : clear implicits.
Arguments Res : clear implicits.
Arguments Done {Op A} _ _.
Arguments Stopped {Op A} _ _.

(** ** The paths through [main] *)

Section Paths.

Context {Op : Type}.
Variable ext : Extern Op.
Variables (argc : Z) (argv : list (list byte)).

(** The address [malloc] answers with, and the heap [main] then holds. *)
Definition model_of : ptr := ext_malloc ext (sizeof_Bmi ext).
Definition allocated : gmap Z (Bmi Op) :=
  if (model_of =? NULL)%Z then ∅ else <[model_of := uninitialised]> ∅.

(** The steps of a run, in order: up to the return of the registrar, up to
    the return of the callback, up to the call of the server loop, and all
    the way. *)
Definition steps_registered : list (Event Op) :=
  [Printf banner;
   Malloc (sizeof_Bmi ext) model_of;
   RegisterBmiCem model_of].

Definition steps_queried (f : fnptr) : list (Event Op) :=
  steps_registered ++ [GetComponentName model_of f].

Definition steps_served (f : fnptr) (s : list byte) (h : gmap Z (Bmi Op))
    : list (Event Op) :=
  steps_queried f ++ [Printf (s ++ [newline]); RunBmiServer model_of argc argv h].

Definition steps (f : fnptr) (s : list byte) (h : gmap Z (Bmi Op)) (status : Z)
    : list (Event Op) :=
  steps_served f s h ++ [ServerReturned status; Free model_of].

(** Every way a run of [main] can end.  One constructor per exit of the
    function: the seven places where it can fault, the server loop that
    never returns, the [return 0], and the server loop that ends the
    process itself. *)
Inductive Path : Res Op Z -> Prop :=
| path_registrar_fault :
    ext_register_bmi_cem ext model_of allocated = None ->
    Path (Stopped (Faulted RegistrarFault)
            (MkWorld allocated steps_registered))
| path_null_dereference h1 :
    ext_register_bmi_cem ext model_of allocated = Some h1 ->
    model_of = NULL ->
    Path (Stopped (Faulted NullDereference)
            (MkWorld h1 steps_registered))
| path_invalid_dereference h1 :
    ext_register_bmi_cem ext model_of allocated = Some h1 ->
    model_of <> NULL ->
    h1 !! model_of = None ->
    Path (Stopped (Faulted InvalidDereference)
            (MkWorld h1 steps_registered))
| path_unbound_slot h1 b :
    ext_register_bmi_cem ext model_of allocated = Some h1 ->
    model_of <> NULL ->
    h1 !! model_of = Some b ->
    bound (get_component_name b) = false ->
    Path (Stopped (Faulted CallThroughUnboundSlot)
            (MkWorld h1 steps_registered))
| path_buffer_overrun h1 b f :
    ext_register_bmi_cem ext model_of allocated = Some h1 ->
    model_of <> NULL ->
    h1 !! model_of = Some b ->
    get_component_name b = Fn f ->
    (BMI_MAX_COMPONENT_NAME ext < length (nc_written (ext_call ext f model_of h1)))%nat ->
    Path (Stopped (Faulted BufferOverrun)
            (MkWorld (nc_heap (ext_call ext f model_of h1))
               (steps_queried f)))
| path_unterminated_read h1 b f :
    ext_register_bmi_cem ext model_of allocated = Some h1 ->
    model_of <> NULL ->
    h1 !! model_of = Some b ->
    get_component_name b = Fn f ->
    (length (nc_written (ext_call ext f model_of h1)) <= BMI_MAX_COMPONENT_NAME ext)%nat ->
    NUL ∉ nc_written (ext_call ext f model_of h1) ->
    Path (Stopped (Faulted UnterminatedRead)
            (MkWorld (nc_heap (ext_call ext f model_of h1))
               (steps_queried f)))
| path_no_return h1 b f s rest :
    ext_register_bmi_cem ext model_of allocated = Some h1 ->
    model_of <> NULL ->
    h1 !! model_of = Some b ->
    get_component_name b = Fn f ->
    (length (nc_written (ext_call ext f model_of h1)) <= BMI_MAX_COMPONENT_NAME ext)%nat ->
    nc_written (ext_call ext f model_of h1) = s ++ NUL :: rest ->
    NUL ∉ s ->
    ext_run_bmi_server ext model_of argc argv (nc_heap (ext_call ext f model_of h1))
      = ServerNeverReturns ->
    Path (Stopped NoReturnFromServer
            (MkWorld (nc_heap (ext_call ext f model_of h1))
               (steps_served f s (nc_heap (ext_call ext f model_of h1)))))
| path_invalid_free h1 b f s rest status h3 :
    ext_register_bmi_cem ext model_of allocated = Some h1 ->
    model_of <> NULL ->
    h1 !! model_of = Some b ->
    get_component_name b = Fn f ->
    (length (nc_written (ext_call ext f model_of h1)) <= BMI_MAX_COMPONENT_NAME ext)%nat ->
    nc_written (ext_call ext f model_of h1) = s ++ NUL :: rest ->
    NUL ∉ s ->
    ext_run_bmi_server ext model_of argc argv (nc_heap (ext_call ext f model_of h1))
      = ServerReturns status h3 ->
    h3 !! model_of = None ->
    Path (Stopped (Faulted InvalidFree)
            (MkWorld h3 (steps f s (nc_heap (ext_call ext f model_of h1)) status)))
| path_return h1 b f s rest status h3 b' :
    ext_register_bmi_cem ext model_of allocated = Some h1 ->
    model_of <> NULL ->
    h1 !! model_of = Some b ->
    get_component_name b = Fn f ->
    (length (nc_written (ext_call ext f model_of h1)) <= BMI_MAX_COMPONENT_NAME ext)%nat ->
    nc_written (ext_call ext f model_of h1) = s ++ NUL :: rest ->
    NUL ∉ s ->
    ext_run_bmi_server ext model_of argc argv (nc_heap (ext_call ext f model_of h1))
      = ServerReturns status h3 ->
    h3 !! model_of = Some b' ->
    Path (Done 0%Z
            (MkWorld (delete model_of h3)
               (steps f s (nc_heap (ext_call ext f model_of h1)) status)))
| path_ended_by_server h1 b f s rest status :
    ext_register_bmi_cem ext model_of allocated = Some h1 ->
    model_of <> NULL ->
    h1 !! model_of = Some b ->
    get_component_name b = Fn f ->
    (length (nc_written (ext_call ext f model_of h1)) <= BMI_MAX_COMPONENT_NAME ext)%nat ->
    nc_written (ext_call ext f model_of h1) = s ++ NUL :: rest ->
    NUL ∉ s ->
    ext_run_bmi_server ext model_of argc argv (nc_heap (ext_call ext f model_of h1))
      = ServerEndsProcess status ->
    Path (Stopped (EndedByServer status)
            (MkWorld (nc_heap (ext_call ext f model_of h1))
               (steps_served f s (nc_heap (ext_call ext f model_of h1))))).

End Paths.

Arguments model_of : simpl never.
Arguments allocated : simpl never.

(** The server loop has been started when the trace holds a call of it. *)
Definition server_started {Op : Type} (t : list (Event Op)) : Prop :=
  exists p a v h, RunBmiServer p a v h ∈ t.

(** The bytes the callback [f] stores when [main] calls it on heap [h]: a
    function of the callee, the handle and the heap, not of the size of the
    array it is handed. *)
Definition name_written {Op : Type} (ext : Extern Op) (f : fnptr)
    (h : gmap Z (Bmi Op)) : list byte :=
  nc_written (ext_call ext f (model_of ext) h).

(** ** A concrete deployment, for examples *)

Module Example.

(** The operations the specification lists by name. *)
Inductive Op : Type :=
| initialize | update | finalize | get_value | set_value | get_time_step.

Definition impl (o : Op) : fnptr :=
  match o with
  | initialize => 11 | update => 12 | finalize => 13
  | get_value => 14 | set_value => 15 | get_time_step => 16
  end%positive.

(** "Cem" *)
Definition name : list byte := [x43; x65; x6d].

(** libc and grpc4bmi, with nothing of CEM linked in yet: [malloc] answers
    [p], the server loop behaves as [server]. *)
Definition host (p : ptr)
    (server : ptr -> Z -> list (list byte) -> gmap Z (Bmi Op) -> ServerOutcome Op)
    : Extern Op :=
  MkExtern 2048 512 (fun _ => p)
    (fun _ _ => None)
    (fun _ _ h => MkNameCall (-1) [] h)
    server.

(** A server loop that serves until shut down and then returns [status]. *)
Definition returning (status : Z) : Extern Op :=
  with_cem name 10%positive impl
    (host 4096 (fun _ _ _ h => ServerReturns status h)).

(** A server loop that never comes back: the process is killed while it
    serves. *)
Definition serving : Extern Op :=
  with_cem name 10%positive impl
    (host 4096 (fun _ _ _ _ => ServerNeverReturns)).

(** An allocation that fails. *)
Definition out_of_memory : Extern Op :=
  with_cem name 10%positive impl
    (host NULL (fun _ _ _ h => ServerReturns 0 h)).

(** An allocation that fails, and a registrar that returns at once when it
    is handed a null handle. *)
Definition out_of_memory_guarded : Extern Op :=
  MkExtern 2048 512 (fun _ => NULL)
    (fun model h => if (model =? NULL)%Z then Some h
                    else cem_register_bmi_cem 10%positive impl model h)
    (fun _ => cem_get_component_name name)
    (fun _ _ _ h => ServerReturns 0 h).

(** A callback that stores three bytes and no terminator. *)
Definition unterminated : Extern Op :=
  MkExtern 2048 512 (fun _ => 4096%Z)
    (cem_register_bmi_cem 10%positive impl)
    (fun _ _ h => MkNameCall 0 name h)
    (fun _ _ _ h => ServerReturns 0 h).

(** A header whose name buffer is three bytes long: "Cem" and its
    terminator do not fit. *)
Definition short_buffer : Extern Op :=
  MkExtern 3 512 (fun _ => 4096%Z)
    (cem_register_bmi_cem 10%positive impl)
    (fun _ => cem_get_component_name name)
    (fun _ _ _ h => ServerReturns 0 h).

(** The arguments ["server"; "--port"; "55555"]. *)
Definition argv : list (list byte) :=
  [[x73; x65; x72; x76; x65; x72];
   [x2d; x2d; x70; x6f; x72; x74];
   [x35; x35; x35; x35; x35]].

End Example.

(** ** Views of the environment and of the trace *)

(** The environment [ext] with the status every callback returns replaced by
    [k]: what the callbacks store and what they do to the heap is kept. *)
Definition with_status {Op : Type} (k : fnptr -> ptr -> gmap Z (Bmi Op) -> Z)
    (ext : Extern Op) : Extern Op :=
  MkExtern (BMI_MAX_COMPONENT_NAME ext) (sizeof_Bmi ext) (ext_malloc ext)
    (ext_register_bmi_cem ext)
    (fun f p h =>
       MkNameCall (k f p h) (nc_written (ext_call ext f p h))
         (nc_heap (ext_call ext f p h)))
    (ext_run_bmi_server ext).

(** The heap the server loop is started on: what the callback [f] left of
    the heap [h] the registrar returned. *)
Definition served_heap {Op : Type} (ext : Extern Op) (f : fnptr)
    (h : gmap Z (Bmi Op)) : gmap Z (Bmi Op) :=
  nc_heap (ext_call ext f (model_of ext) h).

(** The startup of [main] is well defined in [ext]: [malloc] succeeds, the
    registrar returns heap [h1] with the handle live, holding [b], whose
    [get_component_name] slot holds [f], and [f] stores no more than
    [BMI_MAX_COMPONENT_NAME] bytes, the string [s], its terminator and
    possibly more ([rest]). *)
Definition starts_up {Op : Type} (ext : Extern Op) (h1 : gmap Z (Bmi Op))
    (b : Bmi Op) (f : fnptr) (s rest : list byte) : Prop :=
  model_of ext <> NULL /\
  ext_register_bmi_cem ext (model_of ext) (allocated ext) = Some h1 /\
  h1 !! model_of ext = Some b /\
  get_component_name b = Fn f /\
  (length (name_written ext f h1) <= BMI_MAX_COMPONENT_NAME ext)%nat /\
  name_written ext f h1 = s ++ NUL :: rest /\
  NUL ∉ s.

(** The status the process ends with, when the run gives it one: the value
    [main] returns, or the status with which the server loop ended the
    process.  A fault, or a loop still serving, gives none. *)
Definition exit_status {Op : Type} (r : Res Op Z) : option Z :=
  match r with
  | Done c _ => Some c
  | Stopped (EndedByServer c) _ => Some c
  | Stopped (Faulted _) _ | Stopped NoReturnFromServer _ => None
  end.

Module Scenario.

(** A registrar that returns without storing anything: the handle stays as
    [malloc] left it. *)
Definition idle_registrar : Extern Example.Op :=
  MkExtern 2048 512 (fun _ => 4096%Z)
    (fun _ h => Some h)
    (fun _ => cem_get_component_name Example.name)
    (fun _ _ _ h => ServerReturns 0 h).

(** A registrar that binds every slot but stores a null pointer into
    [get_component_name]. *)
Definition null_name_slot : Extern Example.Op :=
  MkExtern 2048 512 (fun _ => 4096%Z)
    (fun model h => Some (<[model := MkBmi NullFn (fun o => Fn (Example.impl o))]> h))
    (fun _ => cem_get_component_name Example.name)
    (fun _ _ _ h => ServerReturns 0 h).

(** A server loop that, before it returns, allocates an object of its own
    at another address and leaves it behind. *)
Definition server_leaves_object : Extern Example.Op :=
  with_cem Example.name 10%positive Example.impl
    (Example.host 4096
       (fun _ _ _ h => ServerReturns 0 (<[8192%Z := uninitialised]> h))).

(** A server loop that fails while serving and ends the process with
    status 3. *)
Definition loop_fails : Extern Example.Op :=
  with_cem Example.name 10%positive Example.impl
    (Example.host 4096 (fun _ _ _ _ => ServerEndsProcess 3)).


(** The handle of the examples once the modelled registrar has bound it,
    and the heap that then holds it. *)
Definition bound_handle : Bmi Example.Op :=
  MkBmi (Fn 10) (fun o => Fn (Example.impl o)).
Definition bound_heap : gmap Z (Bmi Example.Op) :=
  <[4096%Z := bound_handle]> (<[4096%Z := uninitialised]> ∅).

End Scenario.

(** * Properties *)

(** ** The name buffer *)

Lemma read_cstring_written (w : list byte) (k : nat) (s : list byte) :
  read_cstring (map Some w ++ replicate k None) = Some s <->
  exists rest, w = s ++ NUL :: rest /\ NUL ∉ s.
Proof.
  revert s. induction w as [|b w IH]; intros s; simpl.
  - split.
    + destruct k; simpl; discriminate.
    + intros (rest & E & _). destruct s; discriminate.
  - destruct (Byte.eqb b NUL) eqn:Eb.
    + apply Byte.byte_dec_bl in Eb. subst b. split.
      * intros [= <-]. exists w. split; [done | apply not_elem_of_nil].
      * intros (rest & E & Hs). destruct s as [|c s]; [done|].
        simpl in E. injection E as <- _. exfalso. apply Hs. left.
    + apply Byte.eqb_false in Eb.
      destruct (read_cstring (map Some w ++ replicate k None)) as [s'|].
      * destruct (proj1 (IH s') eq_refl) as (rest & -> & Hs'). split.
        -- intros [= <-]. exists rest. split; [done|].
           rewrite not_elem_of_cons. done.
        -- intros (rest' & E & Hs).
           destruct s as [|c s]; simpl in E; [congruence|].
           injection E as <- E.
           rewrite not_elem_of_cons in Hs. destruct Hs as [_ Hs].
           f_equal. f_equal. assert (Some s' = Some s) as [= ->]; [|done].
           apply IH. exists rest'. done.
      * split; [discriminate|].
        intros (rest' & E & Hs).
        destruct s as [|c s]; simpl in E; [congruence|].
        injection E as <- E.
        rewrite not_elem_of_cons in Hs. destruct Hs as [_ Hs].
        assert (None = Some s) as Habs; [|discriminate].
        apply IH. exists rest'. done.
Qed.

Lemma read_cstring_unterminated (w : list byte) (k : nat) :
  read_cstring (map Some w ++ replicate k None) = None <-> NUL ∉ w.
Proof.
  induction w as [|b w IH]; simpl.
  - split; [intros _; apply not_elem_of_nil | intros _; by destruct k].
  - rewrite not_elem_of_cons. destruct (Byte.eqb b NUL) eqn:Eb.
    + apply Byte.byte_dec_bl in Eb. split; [discriminate | intros [? _]; done].
    + apply Byte.eqb_false in Eb.
      destruct (read_cstring (map Some w ++ replicate k None)).
      * split; [discriminate|]. intros [_ H]. apply IH in H. discriminate.
      * split; [|done]. intros _. split; [congruence | by apply IH].
Qed.

Lemma write_buffer_length (cap : nat) (w : list byte) (buf : list (option byte)) :
  write_buffer cap w = Some buf -> length buf = cap /\ (length w <= cap)%nat.
Proof.
  unfold write_buffer. destruct (length w <=? cap)%nat eqn:E; [|discriminate].
  apply Nat.leb_le in E. intros [= <-].
  rewrite length_app, length_map, length_replicate. lia.
Qed.

Lemma write_buffer_overrun (cap : nat) (w : list byte) :
  write_buffer cap w = None <-> (cap < length w)%nat.
Proof.
  unfold write_buffer. destruct (length w <=? cap)%nat eqn:E.
  - apply Nat.leb_le in E. split; [discriminate | lia].
  - apply Nat.leb_gt in E. done.
Qed.

(** ** The paths through [main] *)

(** [run] always takes one of them. *)
Lemma run_path {Op : Type} (ext : Extern Op) (argc : Z) (argv : list (list byte)) :
  Path ext argc argv (run ext argc argv).
Proof.
  unfold run, main, malloc, register_bmi_cem, load_get_component_name.
  unfold mbind, M_bind, mret, M_ret, printf, emit, get_heap, put_heap, fault.
  simpl. fold (model_of ext).
  destruct (model_of ext =? NULL)%Z eqn:Enull; simpl.
  - apply Z.eqb_eq in Enull.
    assert (allocated ext = ∅) as Ea.
    { unfold allocated. rewrite Enull. done. }
    rewrite <- Ea.
    destruct (ext_register_bmi_cem ext (model_of ext) (allocated ext)) as [h1|] eqn:Ereg; simpl.
    + rewrite (proj2 (Z.eqb_eq _ _) Enull). simpl.
      by eapply path_null_dereference.
    + by apply path_registrar_fault.
  - apply Z.eqb_neq in Enull.
    assert (allocated ext = <[model_of ext := uninitialised]> ∅) as Ea.
    { unfold allocated. by rewrite (proj2 (Z.eqb_neq _ _) Enull). }
    rewrite <- Ea.
    destruct (ext_register_bmi_cem ext (model_of ext) (allocated ext)) as [h1|] eqn:Ereg; simpl;
      [|by apply path_registrar_fault].
    rewrite (proj2 (Z.eqb_neq _ _) Enull). simpl.
    destruct (h1 !! model_of ext) as [b|] eqn:Eb; simpl;
      [|by eapply path_invalid_dereference].
    unfold call_slot.
    destruct (get_component_name b) as [| |f] eqn:Ef; simpl;
      [by eapply path_unbound_slot; eauto; rewrite Ef
      |by eapply path_unbound_slot; eauto; rewrite Ef|].
    unfold mbind, M_bind, mret, M_ret, emit, get_heap, put_heap, fault. simpl.
    destruct (write_buffer (BMI_MAX_COMPONENT_NAME ext)
                (nc_written (ext_call ext f (model_of ext) h1))) as [buf|] eqn:Ew; simpl.
    2:{ apply write_buffer_overrun in Ew. by eapply path_buffer_overrun. }
    pose proof (write_buffer_length _ _ _ Ew) as [_ Hlen].
    unfold write_buffer in Ew. rewrite (proj2 (Nat.leb_le _ _) Hlen) in Ew.
    injection Ew as <-.
    unfold printf_line.
    destruct (read_cstring _) as [s|] eqn:Er; simpl.
    2:{ apply read_cstring_unterminated in Er. by eapply path_unterminated_read. }
    apply read_cstring_written in Er as (rest & Ewr & Hs).
    unfold run_bmi_server, free, printf.
    unfold mbind, M_bind, mret, M_ret, emit, get_heap, put_heap, fault, never_returns,
      ends_process.
    simpl.
    destruct (ext_run_bmi_server ext (model_of ext) argc argv
                (nc_heap (ext_call ext f (model_of ext) h1))) as [status h3| |status] eqn:Es;
      simpl.
    2:{ by eapply path_no_return. }
    2:{ by eapply path_ended_by_server. }
    rewrite (proj2 (Z.eqb_neq _ _) Enull). simpl.
    destruct (h3 !! model_of ext) as [b'|] eqn:Eb'; simpl.
    + by eapply path_return.
    + by eapply path_invalid_free.
Qed.

(** Case analysis on the path a run took. *)
Ltac on_path ext argc argv :=
  let P := fresh "P" in
  let r := fresh "r" in
  let E := fresh "Erun" in
  pose proof (run_path ext argc argv) as P;
  remember (run ext argc argv) as r eqn:E;
  destruct P;
  unfold steps, steps_served, steps_queried, steps_registered in *;
  cbn [final trace heap take app] in *.

(** Membership in a list that is written out. *)
Ltac in_listed H :=
  repeat (apply elem_of_cons in H as [H|H]; [try discriminate H|]);
  try (apply elem_of_nil in H; contradiction).

(** Two runs of the same premises agree on what they found. *)
Ltac agree :=
  repeat match goal with
  | H1 : get_component_name ?b = Fn _,
    H2 : bound (get_component_name ?b) = false |- _ =>
      rewrite H1 in H2; discriminate H2
  | H1 : ?x = _, H2 : ?x = _ |- _ =>
      rewrite H1 in H2;
      first [ discriminate H2
            | match type of H2 with ?a = ?a => clear H2 end
            | progress (injection H2; intros; subst); clear H2
            | idtac ]
  end.

Section Forward.

Context {Op : Type}.
Variable ext : Extern Op.
Variables (argc : Z) (argv : list (list byte)).

(** Once the slot is known to hold [f], the run is decided by what the
    callback stores and by what the server loop does. *)
Lemma run_overrun (h1 : gmap Z (Bmi Op)) (b : Bmi Op) (f : fnptr) :
  model_of ext <> NULL ->
  ext_register_bmi_cem ext (model_of ext) (allocated ext) = Some h1 ->
  h1 !! model_of ext = Some b ->
  get_component_name b = Fn f ->
  (BMI_MAX_COMPONENT_NAME ext < length (nc_written (ext_call ext f (model_of ext) h1)))%nat ->
  run ext argc argv =
    Stopped (Faulted BufferOverrun)
      (MkWorld (nc_heap (ext_call ext f (model_of ext) h1))
         (take 4 (steps ext argc argv f [] ∅ 0))).
Proof.
  intros Hp Hr Hb Hf Hw.
  on_path ext argc argv; agree; try done; try lia.
Qed.

Lemma run_unterminated (h1 : gmap Z (Bmi Op)) (b : Bmi Op) (f : fnptr) :
  model_of ext <> NULL ->
  ext_register_bmi_cem ext (model_of ext) (allocated ext) = Some h1 ->
  h1 !! model_of ext = Some b ->
  get_component_name b = Fn f ->
  (length (nc_written (ext_call ext f (model_of ext) h1)) <= BMI_MAX_COMPONENT_NAME ext)%nat ->
  NUL ∉ nc_written (ext_call ext f (model_of ext) h1) ->
  run ext argc argv =
    Stopped (Faulted UnterminatedRead)
      (MkWorld (nc_heap (ext_call ext f (model_of ext) h1))
         (take 4 (steps ext argc argv f [] ∅ 0))).
Proof.
  intros Hp Hr Hb Hf Hw Hn.
  on_path ext argc argv; agree; try done; try lia.
  all: exfalso; apply Hn; match goal with H : nc_written _ = _ |- _ => rewrite H end;
    apply elem_of_app; right; left.
Qed.

(** A terminated, fitting name is printed and the server loop entered. *)
Lemma run_reaches_server (h1 : gmap Z (Bmi Op)) (b : Bmi Op) (f : fnptr)
    (s rest : list byte) :
  model_of ext <> NULL ->
  ext_register_bmi_cem ext (model_of ext) (allocated ext) = Some h1 ->
  h1 !! model_of ext = Some b ->
  get_component_name b = Fn f ->
  (length (nc_written (ext_call ext f (model_of ext) h1)) <= BMI_MAX_COMPONENT_NAME ext)%nat ->
  nc_written (ext_call ext f (model_of ext) h1) = s ++ NUL :: rest ->
  NUL ∉ s ->
  take 6 (trace (final (run ext argc argv)))
  = take 6 (steps ext argc argv f s (nc_heap (ext_call ext f (model_of ext) h1)) 0).
Proof.
  intros Hp Hr Hb Hf Hw Hs Hn.
  assert (forall s' rest', s ++ NUL :: rest = s' ++ NUL :: rest' -> NUL ∉ s' -> s' = s)
    as Huniq.
  { intros s' rest' E Hn'.
    assert (Some s = Some s') as [= ->]; [|done].
    transitivity (read_cstring (map Some (s ++ NUL :: rest) ++ replicate 0 None)).
    - symmetry. apply read_cstring_written. by exists rest.
    - apply read_cstring_written. by exists rest'. }
  on_path ext argc argv; agree; try done; try lia.
  - exfalso. match goal with H : NUL ∉ _ |- _ => apply H end.
    rewrite Hs. apply elem_of_app. right. left.
  - match goal with H : s ++ _ = ?s' ++ _ |- _ => rewrite (Huniq _ _ H) by done end. done.
  - match goal with H : s ++ _ = ?s' ++ _ |- _ => rewrite (Huniq _ _ H) by done end. done.
  - match goal with H : s ++ _ = ?s' ++ _ |- _ => rewrite (Huniq _ _ H) by done end. done.
  - match goal with H : s ++ _ = ?s' ++ _ |- _ => rewrite (Huniq _ _ H) by done end. done.
Qed.

End Forward.

(** After a well defined startup the rest of the run is what the server
    loop, called on the handle and the arguments, makes of it. *)
Lemma run_after_startup {Op : Type} (ext : Extern Op)
    (argc : Z) (argv : list (list byte))
    (h1 : gmap Z (Bmi Op)) (b : Bmi Op) (f : fnptr) (s rest : list byte) :
  starts_up ext h1 b f s rest ->
  run ext argc argv =
  match ext_run_bmi_server ext (model_of ext) argc argv (served_heap ext f h1) with
  | ServerReturns status h3 =>
      match h3 !! model_of ext with
      | Some _ =>
          Done 0%Z (MkWorld (delete (model_of ext) h3)
                      (steps ext argc argv f s (served_heap ext f h1) status))
      | None =>
          Stopped (Faulted InvalidFree)
            (MkWorld h3 (steps ext argc argv f s (served_heap ext f h1) status))
      end
  | ServerNeverReturns =>
      Stopped NoReturnFromServer
        (MkWorld (served_heap ext f h1)
           (steps_served ext argc argv f s (served_heap ext f h1)))
  | ServerEndsProcess status =>
      Stopped (EndedByServer status)
        (MkWorld (served_heap ext f h1)
           (steps_served ext argc argv f s (served_heap ext f h1)))
  end.
Proof.
  intros (Hp & Hr & Hb & Hf & Hlen & Hw & Hs).
  unfold name_written, served_heap in *.
  assert (forall s' rest', s ++ NUL :: rest = s' ++ NUL :: rest' -> NUL ∉ s' -> s' = s)
    as Huniq.
  { intros s' rest' E Hn'.
    assert (Some s = Some s') as [= ->]; [|done].
    transitivity (read_cstring (map Some (s ++ NUL :: rest) ++ replicate 0 None)).
    - symmetry. apply read_cstring_written. by exists rest.
    - apply read_cstring_written. by exists rest'. }
  on_path ext argc argv; agree; try done; try lia.
  - exfalso. match goal with H : NUL ∉ _ |- _ => apply H end.
    rewrite Hw. apply elem_of_app. right. left.
  - match goal with H : s ++ _ = ?s' ++ _ |- _ => rewrite (Huniq _ _ H) by done end.
    match goal with H : ext_run_bmi_server _ _ _ _ _ = _ |- _ => by rewrite H end.
  - match goal with H : s ++ _ = ?s' ++ _ |- _ => rewrite (Huniq _ _ H) by done end.
    match goal with H : ext_run_bmi_server _ _ _ _ _ = _ |- _ => rewrite H end.
    match goal with H : _ !! _ = None |- _ => by rewrite H end.
  - match goal with H : s ++ _ = ?s' ++ _ |- _ => rewrite (Huniq _ _ H) by done end.
    match goal with H : ext_run_bmi_server _ _ _ _ _ = _ |- _ => rewrite H end.
    match goal with H : ?h !! _ = Some _ |- context [?h !! _] => by rewrite H end.
  - match goal with H : s ++ _ = ?s' ++ _ |- _ => rewrite (Huniq _ _ H) by done end.
    match goal with H : ext_run_bmi_server _ _ _ _ _ = _ |- _ => by rewrite H end.
Qed.

(** The startup of a concrete environment is well defined: every part is
    decided by evaluation. *)
Ltac startup_holds :=
  repeat split;
  try reflexivity; try discriminate;
  try (cbn; lia);
  try (let H := fresh in intros H; in_listed H).

(** ** Registration *)

Section WithCem.

Context {Op : Type}.
Variables (declared : list byte) (name_impl : fnptr) (impl : Op -> fnptr).
Variable ext : Extern Op.

Lemma with_cem_registers :
  model_of ext <> NULL ->
  ext_register_bmi_cem (with_cem declared name_impl impl ext)
    (model_of (with_cem declared name_impl impl ext))
    (allocated (with_cem declared name_impl impl ext))
  = Some (<[model_of ext := MkBmi (Fn name_impl) (fun o => Fn (impl o))]>
            (allocated ext)).
Proof.
  intros Hp. change (model_of (with_cem declared name_impl impl ext)) with (model_of ext).
  change (allocated (with_cem declared name_impl impl ext)) with (allocated ext).
  simpl. unfold cem_register_bmi_cem, allocated.
  rewrite (proj2 (Z.eqb_neq _ _) Hp). by rewrite lookup_insert_eq.
Qed.



End WithCem.

(** C1 (registration completeness).  With the CEM library as the
    specification describes it, whenever [main] passes the handle to
    [run_bmi_server] the handle is a live object whose every callback slot,
    [get_component_name] and each operation of the uniform interface alike
    (so in particular each one the server can dispatch), holds a non-null
    implementation: the one the registrar bound. *)
Theorem registration_complete {Op : Type} (ext : Extern Op)
    (declared : list byte) (name_impl : fnptr) (impl : Op -> fnptr)
    (argc : Z) (argv : list (list byte))
    (model : ptr) (a : Z) (v : list (list byte)) (h : gmap Z (Bmi Op)) :
  RunBmiServer model a v h
    ∈ trace (final (run (with_cem declared name_impl impl ext) argc argv)) ->
  exists b : Bmi Op,
    h !! model = Some b /\ fully_bound b /\
    get_component_name b = Fn name_impl /\ forall o, slot b o = Fn (impl o).
Proof.
  intros Hin.
  assert (model_of ext <> NULL ->
          h = <[model_of ext := MkBmi (Fn name_impl) (fun o => Fn (impl o))]>
                (allocated ext) /\ model = model_of ext) as Hh.
  { intros Hp.
    on_path (with_cem declared name_impl impl ext) argc argv; in_listed Hin;
      simplify_eq;
      match goal with
      | Hr : ext_register_bmi_cem _ _ _ = Some _ |- _ =>
          rewrite with_cem_registers in Hr by done; simplify_eq
      end;
      match goal with
      | Hb : <[_:=_]> _ !! _ = Some _ |- _ =>
          rewrite lookup_insert_eq in Hb; simplify_eq
      end;
      cbn [get_component_name] in *; simplify_eq;
      rewrite Pos.eqb_refl; done. }
  destruct (decide (model_of ext = NULL)) as [Hnull|Hp].
  - exfalso.
    on_path (with_cem declared name_impl impl ext) argc argv; in_listed Hin;
      done.
  - destruct (Hh Hp) as [-> ->]. eexists. split; [apply lookup_insert_eq|].
    repeat split.
Qed.

Lemma registration_complete_witness :
  exists b : Bmi Example.Op,
    (<[4096%Z := MkBmi (Fn 10) (fun o => Fn (Example.impl o))]>
       (<[4096%Z := uninitialised]> ∅) : gmap Z (Bmi Example.Op)) !! 4096%Z = Some b /\
    fully_bound b /\
    get_component_name b = Fn 10 /\ forall o, slot b o = Fn (Example.impl o).
Proof.
  apply (registration_complete
           (Example.host 4096 (fun _ _ _ h => ServerReturns 0 h))
           Example.name 10 Example.impl 3 Example.argv
           4096 3 Example.argv).
  apply (list_elem_of_lookup_2 _ 5). reflexivity.
Defined.




(** ** Lifetime of the handle *)

(** C3 (lifetime).  In every run, if [free] is called at all then the trace
    ends with the call of [run_bmi_server], its return and the [free], all
    three on the same handle: nothing is freed before the server loop has
    come back, and the server loop is not entered a second time. *)
Theorem free_only_after_server_returned {Op : Type} (ext : Extern Op)
    (argc : Z) (argv : list (list byte)) (p : ptr) :
  Free p ∈ trace (final (run ext argc argv)) ->
  exists (pre : list (Event Op)) (h : gmap Z (Bmi Op)) (status : Z),
    trace (final (run ext argc argv))
    = pre ++ [RunBmiServer p argc argv h; ServerReturned status; Free p] /\
    (forall q, Free q ∉ pre) /\
    (forall q a v h', RunBmiServer q a v h' ∉ pre).
Proof.
  intros Hin.
  on_path ext argc argv; in_listed Hin; injection Hin as ->.
  all: eexists (take 5 (steps ext argc argv _ _ ∅ 0)), _, _.
  all: split; [reflexivity|].
  all: split; intros; intros Hx; cbn [take steps] in Hx; in_listed Hx.
Qed.

Lemma free_only_after_server_returned_witness :
  exists (pre : list (Event Example.Op)) (h : gmap Z (Bmi Example.Op)) (status : Z),
    trace (final (run (Example.returning 0) 3 Example.argv))
    = pre ++ [RunBmiServer 4096 3 Example.argv h; ServerReturned status; Free 4096] /\
    (forall q, Free q ∉ pre) /\
    (forall q a v h', RunBmiServer q a v h' ∉ pre).
Proof.
  apply (free_only_after_server_returned (Example.returning 0) 3 Example.argv 4096).
  apply (list_elem_of_lookup_2 _ 7). reflexivity.
Defined.

(** ** Arguments *)



(** ** Exit paths *)

(** C9 (no test of the allocation).  When [malloc] answers [NULL], [main]
    goes on as if it had not: the very next step hands the null handle to
    [register_bmi_cem]; if that call comes back, the load of
    [model->get_component_name] goes through the null handle and the run
    faults there; in no case does the run complete.  So [main] returns only
    in runs in which [malloc] succeeded. *)
Theorem null_handle_unchecked {Op : Type} (ext : Extern Op)
    (argc : Z) (argv : list (list byte)) :
  model_of ext = NULL ->
  trace (final (run ext argc argv))
  = [Printf banner; Malloc (sizeof_Bmi ext) NULL; RegisterBmiCem NULL] /\
  (forall h1,
     ext_register_bmi_cem ext NULL ∅ = Some h1 ->
     run ext argc argv
     = Stopped (Faulted NullDereference)
         (MkWorld h1 [Printf banner; Malloc (sizeof_Bmi ext) NULL; RegisterBmiCem NULL])) /\
  (ext_register_bmi_cem ext NULL ∅ = None ->
     run ext argc argv
     = Stopped (Faulted RegistrarFault)
         (MkWorld ∅ [Printf banner; Malloc (sizeof_Bmi ext) NULL; RegisterBmiCem NULL])) /\
  (forall c w, run ext argc argv <> Done c w).
Proof.
  intros Hnull.
  assert (allocated ext = ∅) as Ha by (unfold allocated; by rewrite Hnull).
  on_path ext argc argv; try contradiction; rewrite ?Ha, ?Hnull in *.
  - repeat split; try done. intros h1 Hh. congruence.
  - repeat split; try done.
    + intros h1' Hh. congruence.
    + intros Hh. congruence.
Qed.

Lemma null_handle_unchecked_witness :
  trace (final (run Example.out_of_memory_guarded 3 Example.argv))
  = [Printf banner; Malloc 512 NULL; RegisterBmiCem NULL] /\
  (forall h1,
     ext_register_bmi_cem Example.out_of_memory_guarded NULL ∅ = Some h1 ->
     run Example.out_of_memory_guarded 3 Example.argv
     = Stopped (Faulted NullDereference)
         (MkWorld h1 [Printf banner; Malloc 512 NULL; RegisterBmiCem NULL])) /\
  (ext_register_bmi_cem Example.out_of_memory_guarded NULL ∅ = None ->
     run Example.out_of_memory_guarded 3 Example.argv
     = Stopped (Faulted RegistrarFault)
         (MkWorld ∅ [Printf banner; Malloc 512 NULL; RegisterBmiCem NULL])) /\
  (forall c w, run Example.out_of_memory_guarded 3 Example.argv <> Done c w).
Proof.
  apply (null_handle_unchecked Example.out_of_memory_guarded 3 Example.argv).
  reflexivity.
Defined.

(** C4, on a concrete run.  [malloc] fails; the registrar is called all the
    same, with the null handle, it returns, and the run then stops at the
    load through the null handle.  No exit code is produced. *)
Lemma allocation_failure_reaches_registrar :
  model_of Example.out_of_memory_guarded = NULL /\
  run Example.out_of_memory_guarded 3 Example.argv
  = Stopped (Faulted NullDereference)
      (MkWorld ∅ [Printf banner; Malloc 512 NULL; RegisterBmiCem NULL]).
Proof. split; reflexivity. Qed.

(** C4, as the code has it.  When [malloc] answers [NULL] there is no check
    and no exit code: the registrar is still called, on the null handle, and
    the run ends in a fault, inside the registrar or at the load through the
    null handle that follows it.  The server loop is never started, nothing
    is freed, and the banner is all that has been printed. *)
Theorem allocation_failure_faults {Op : Type} (ext : Extern Op)
    (argc : Z) (argv : list (list byte)) :
  model_of ext = NULL ->
  (exists w,
     RegisterBmiCem NULL ∈ trace w /\
     (run ext argc argv = Stopped (Faulted RegistrarFault) w \/
      run ext argc argv = Stopped (Faulted NullDereference) w)) /\
  ~ server_started (trace (final (run ext argc argv))) /\
  (forall p, Free p ∉ trace (final (run ext argc argv))) /\
  printed (trace (final (run ext argc argv))) = [banner].
Proof.
  intros Hnull.
  on_path ext argc argv; try contradiction; rewrite ?Hnull in *.
  all: split; [eexists; split; [|eauto]; apply (list_elem_of_lookup_2 _ 2); reflexivity|].
  all: split; [intros (p & a & v & h & Hin); in_listed Hin|].
  all: split; [intros p Hin; in_listed Hin|reflexivity].
Qed.

Lemma allocation_failure_faults_witness :
  (exists w,
     RegisterBmiCem NULL ∈ trace w /\
     (run Example.out_of_memory 3 Example.argv = Stopped (Faulted RegistrarFault) w \/
      run Example.out_of_memory 3 Example.argv = Stopped (Faulted NullDereference) w)) /\
  ~ server_started (trace (final (run Example.out_of_memory 3 Example.argv))) /\
  (forall p, Free p ∉ trace (final (run Example.out_of_memory 3 Example.argv))) /\
  printed (trace (final (run Example.out_of_memory 3 Example.argv))) = [banner].
Proof.
  apply (allocation_failure_faults Example.out_of_memory 3 Example.argv).
  reflexivity.
Defined.



(** The three outcomes of C5 on concrete runs: a loop that returns, a loop
    that ends the process with status 3, a loop that keeps serving. *)
Example exit_status_examples :
  exit_status (run (Example.returning 0) 3 Example.argv) = Some 0%Z /\
  exit_status (run Scenario.loop_fails 3 Example.argv) = Some 3%Z /\
  exit_status (run Example.serving 3 Example.argv) = None.
Proof. repeat split. Qed.

(** ** Order of the steps *)




(** The whole sequence on a run that goes all the way. *)
Example steps_of_a_complete_run :
  trace (final (run (Example.returning 0) 3 Example.argv))
  = [Printf banner; Malloc 512 4096; RegisterBmiCem 4096;
     GetComponentName 4096 10; Printf (Example.name ++ [newline]);
     RunBmiServer 4096 3 Example.argv Scenario.bound_heap;
     ServerReturned 0; Free 4096].
Proof. reflexivity. Qed.

(** ** Output *)

(** C8, on a concrete run.  The server loop fails while it serves and ends
    the process with status 3.  By the time the loop was entered the adapter
    had written two lines of its own, the fixed banner and then the
    component name, not one. *)
Lemma adapter_prints_two_lines :
  run Scenario.loop_fails 3 Example.argv
  = Stopped (EndedByServer 3)
      (MkWorld Scenario.bound_heap
         [Printf banner; Malloc 512 4096; RegisterBmiCem 4096;
          GetComponentName 4096 10; Printf (Example.name ++ [newline]);
          RunBmiServer 4096 3 Example.argv Scenario.bound_heap]) /\
  printed (trace (final (run Scenario.loop_fails 3 Example.argv)))
  = [banner; Example.name ++ [newline]] /\
  count_occ Byte.byte_eq_dec
    (concat (printed (trace (final (run Scenario.loop_fails 3 Example.argv)))))
    newline
  = 2%nat.
Proof. repeat split. Qed.

(** C8, as the code has it.  What the adapter itself writes to the standard
    output, through [printf], is this.  On every run whose startup is well
    defined: two lines, in this order and before the server loop is entered,
    the fixed banner and then the bytes the callback stored up to their
    terminator followed by a newline; and nothing from the call of the
    server loop on, whatever becomes of that call.  On a run in which
    [malloc] fails, the registrar faults, or the registrar leaves the
    [get_component_name] slot without an implementation: the banner only. *)
Theorem adapter_output {Op : Type} (ext : Extern Op)
    (argc : Z) (argv : list (list byte)) :
  (forall h1 b f s rest,
     starts_up ext h1 b f s rest ->
     printed (take 5 (trace (final (run ext argc argv)))) = [banner; s ++ [newline]] /\
     trace (final (run ext argc argv)) !! 5%nat
     = Some (RunBmiServer (model_of ext) argc argv (served_heap ext f h1)) /\
     printed (drop 5 (trace (final (run ext argc argv)))) = []) /\
  (model_of ext = NULL ->
   printed (trace (final (run ext argc argv))) = [banner]) /\
  (ext_register_bmi_cem ext (model_of ext) (allocated ext) = None ->
   printed (trace (final (run ext argc argv))) = [banner]) /\
  (forall h1 b,
     ext_register_bmi_cem ext (model_of ext) (allocated ext) = Some h1 ->
     h1 !! model_of ext = Some b ->
     bound (get_component_name b) = false ->
     printed (trace (final (run ext argc argv))) = [banner]).
Proof.
  split; [|split; [|split]].
  - intros h1 b f s rest Hstart.
    rewrite (run_after_startup ext argc argv h1 b f s rest Hstart).
    destruct (ext_run_bmi_server ext (model_of ext) argc argv (served_heap ext f h1))
      as [status h3| |status]; [destruct (h3 !! model_of ext)| |];
      repeat split.
  - intros Hnull. on_path ext argc argv; try contradiction; reflexivity.
  - intros Hreg. on_path ext argc argv; agree; reflexivity.
  - intros h1 b Hreg Hb Hu.
    on_path ext argc argv; agree; try reflexivity;
      match goal with
      | H : get_component_name b = Fn _ |- _ => rewrite H in Hu; discriminate Hu
      end.
Qed.

Lemma adapter_output_witness :
  printed (take 5 (trace (final (run Scenario.loop_fails 3 Example.argv))))
  = [banner; Example.name ++ [newline]] /\
  trace (final (run Scenario.loop_fails 3 Example.argv)) !! 5%nat
  = Some (RunBmiServer 4096 3 Example.argv
            (served_heap Scenario.loop_fails 10 Scenario.bound_heap)) /\
  printed (drop 5 (trace (final (run Scenario.loop_fails 3 Example.argv)))) = [].
Proof.
  apply (proj1 (adapter_output Scenario.loop_fails 3 Example.argv)
           Scenario.bound_heap Scenario.bound_handle 10%positive Example.name []).
  startup_holds.
Defined.

(** The banner alone, on the run in which [malloc] fails. *)
Example banner_only_when_out_of_memory :
  printed (trace (final (run Example.out_of_memory_guarded 3 Example.argv)))
  = [banner].
Proof. reflexivity. Qed.

(** ** The name buffer in [main] *)

(** C10 (the name buffer).  Take a run in which the handle was allocated and
    registered and its [get_component_name] slot holds [f].  [main] hands [f]
    an array of exactly [BMI_MAX_COMPONENT_NAME] cells and nothing that tells
    its size.  The [printf] of the array is reached, without a fault, exactly
    when [f] stored no more than [BMI_MAX_COMPONENT_NAME] bytes and a NUL
    among them; it then prints the bytes before the first NUL, a string that
    with its terminator is at most [BMI_MAX_COMPONENT_NAME] long.  Otherwise
    the run faults: a write past the array when [f] stored more, a read past
    what was written when there is no NUL. *)
Theorem name_buffer_precondition {Op : Type} (ext : Extern Op)
    (argc : Z) (argv : list (list byte))
    (h1 : gmap Z (Bmi Op)) (b : Bmi Op) (f : fnptr) :
  model_of ext <> NULL ->
  ext_register_bmi_cem ext (model_of ext) (allocated ext) = Some h1 ->
  h1 !! model_of ext = Some b ->
  get_component_name b = Fn f ->
  (forall buf,
     write_buffer (BMI_MAX_COMPONENT_NAME ext) (name_written ext f h1) = Some buf ->
     length buf = BMI_MAX_COMPONENT_NAME ext) /\
  ((exists s, trace (final (run ext argc argv)) !! 4%nat = Some (Printf (s ++ [newline])))
   <-> ((length (name_written ext f h1) <= BMI_MAX_COMPONENT_NAME ext)%nat /\
        exists s rest, name_written ext f h1 = s ++ NUL :: rest /\ NUL ∉ s)) /\
  (forall s rest,
     (length (name_written ext f h1) <= BMI_MAX_COMPONENT_NAME ext)%nat ->
     name_written ext f h1 = s ++ NUL :: rest -> NUL ∉ s ->
     trace (final (run ext argc argv)) !! 4%nat = Some (Printf (s ++ [newline])) /\
     (length s + 1 <= BMI_MAX_COMPONENT_NAME ext)%nat) /\
  ((BMI_MAX_COMPONENT_NAME ext < length (name_written ext f h1))%nat ->
   exists w, run ext argc argv = Stopped (Faulted BufferOverrun) w) /\
  ((length (name_written ext f h1) <= BMI_MAX_COMPONENT_NAME ext)%nat ->
   NUL ∉ name_written ext f h1 ->
   exists w, run ext argc argv = Stopped (Faulted UnterminatedRead) w).
Proof.
  intros Hp Hr Hb Hf. unfold name_written.
  assert (forall s rest,
            (length (nc_written (ext_call ext f (model_of ext) h1))
             <= BMI_MAX_COMPONENT_NAME ext)%nat ->
            nc_written (ext_call ext f (model_of ext) h1) = s ++ NUL :: rest ->
            NUL ∉ s ->
            trace (final (run ext argc argv)) !! 4%nat = Some (Printf (s ++ [newline])))
    as Hprint.
  { intros s rest Hlen Hw Hs.
    pose proof (run_reaches_server ext argc argv h1 b f s rest Hp Hr Hb Hf Hlen Hw Hs)
      as Ht.
    rewrite <- (lookup_take_lt _ 6 4); [|lia]. rewrite Ht. reflexivity. }
  split; [|split; [|split; [|split]]].
  - intros buf Hbuf. exact (proj1 (write_buffer_length _ _ _ Hbuf)).
  - split.
    + intros [s Hs].
      on_path ext argc argv; agree; try discriminate Hs; split; eauto.
    + intros (Hlen & s & rest & Hw & Hs). exists s. by eapply Hprint.
  - intros s rest Hlen Hw Hs. split; [by eapply Hprint|].
    rewrite Hw, length_app in Hlen. simpl in Hlen. lia.
  - intros Hlen. eexists. by eapply run_overrun.
  - intros Hlen Hn. eexists. by eapply run_unterminated.
Qed.

Lemma name_buffer_precondition_witness :
  (forall buf,
     write_buffer 2048 (Example.name ++ [NUL]) = Some buf -> length buf = 2048%nat) /\
  ((exists s, trace (final (run (Example.returning 0) 3 Example.argv)) !! 4%nat
              = Some (Printf (s ++ [newline])))
   <-> ((length (Example.name ++ [NUL]) <= 2048)%nat /\
        exists s rest, Example.name ++ [NUL] = s ++ NUL :: rest /\ NUL ∉ s)) /\
  (forall s rest,
     (length (Example.name ++ [NUL]) <= 2048)%nat ->
     Example.name ++ [NUL] = s ++ NUL :: rest -> NUL ∉ s ->
     trace (final (run (Example.returning 0) 3 Example.argv)) !! 4%nat
     = Some (Printf (s ++ [newline])) /\
     (length s + 1 <= 2048)%nat) /\
  ((2048 < length (Example.name ++ [NUL]))%nat ->
   exists w, run (Example.returning 0) 3 Example.argv = Stopped (Faulted BufferOverrun) w) /\
  ((length (Example.name ++ [NUL]) <= 2048)%nat ->
   NUL ∉ Example.name ++ [NUL] ->
   exists w, run (Example.returning 0) 3 Example.argv
             = Stopped (Faulted UnterminatedRead) w).
Proof.
  apply (name_buffer_precondition (Example.returning 0) 3 Example.argv
           (<[4096%Z := MkBmi (Fn 10) (fun o => Fn (Example.impl o))]>
              (<[4096%Z := uninitialised]> ∅))
           (MkBmi (Fn 10) (fun o => Fn (Example.impl o))) 10);
    [discriminate | reflexivity | reflexivity | reflexivity].
Defined.

(** The two faults of C10 on concrete runs: a callback that stores no
    terminator, and a name that does not fit the array. *)
Example unterminated_name_faults :
  exists w, run Example.unterminated 3 Example.argv
            = Stopped (Faulted UnterminatedRead) w.
Proof. eexists. reflexivity. Qed.

Example long_name_faults :
  exists w, run Example.short_buffer 3 Example.argv
            = Stopped (Faulted BufferOverrun) w.
Proof. eexists. reflexivity. Qed.

(** * Further properties of [main] *)

(** ** When [main] returns *)

(** X5 (the handle is released on a normal exit).  When [main] returns, the
    heap it leaves is the heap the server loop handed back with the handle
    removed: the handle is no longer allocated, and every other object is as
    the server loop left it. *)
Theorem exit_releases_handle {Op : Type} (ext : Extern Op)
    (argc : Z) (argv : list (list byte)) (c : Z) (w : World Op) :
  run ext argc argv = Done c w ->
  exists h status h3,
    trace w !! 5%nat = Some (RunBmiServer (model_of ext) argc argv h) /\
    ext_run_bmi_server ext (model_of ext) argc argv h = ServerReturns status h3 /\
    heap w !! model_of ext = None /\
    forall q, q <> model_of ext -> heap w !! q = h3 !! q.
Proof.
  intros Hrun.
  on_path ext argc argv; try discriminate Hrun.
  injection Hrun as <- <-. cbn [heap trace].
  eexists _, _, _. split; [reflexivity|]. split; [eassumption|].
  split; [apply lookup_delete_eq|].
  intros q Hq. by apply lookup_delete_ne.
Qed.

Lemma exit_releases_handle_witness :
  exists h status h3,
    trace (final (run Scenario.server_leaves_object 3 Example.argv)) !! 5%nat
      = Some (RunBmiServer 4096 3 Example.argv h) /\
    ext_run_bmi_server Scenario.server_leaves_object 4096 3 Example.argv h
      = ServerReturns status h3 /\
    heap (final (run Scenario.server_leaves_object 3 Example.argv)) !! 4096%Z = None /\
    forall q, q <> 4096%Z ->
      heap (final (run Scenario.server_leaves_object 3 Example.argv)) !! q = h3 !! q.
Proof.
  apply (exit_releases_handle Scenario.server_leaves_object 3 Example.argv 0
           (final (run Scenario.server_leaves_object 3 Example.argv))).
  reflexivity.
Defined.

(** ** What the handle goes through *)

(** X3 (the adapter does not write the handle).  The heap the server loop is
    started on is exactly what the callback left of the heap the registrar
    returned, and the registrar was given the object fresh from [malloc],
    with every slot still indeterminate: between allocation and the server
    loop the handle is written by the registrar and the callback only. *)
Theorem handle_untouched_by_adapter {Op : Type} (ext : Extern Op)
    (argc : Z) (argv : list (list byte))
    (p : ptr) (a : Z) (v : list (list byte)) (h : gmap Z (Bmi Op)) :
  RunBmiServer p a v h ∈ trace (final (run ext argc argv)) ->
  allocated ext = <[model_of ext := uninitialised]> ∅ /\
  exists h1 b f,
    ext_register_bmi_cem ext (model_of ext) (allocated ext) = Some h1 /\
    h1 !! model_of ext = Some b /\
    get_component_name b = Fn f /\
    h = nc_heap (ext_call ext f (model_of ext) h1).
Proof.
  intros Hin.
  assert (model_of ext <> NULL -> allocated ext = <[model_of ext := uninitialised]> ∅)
    as Ha.
  { intros Hp. unfold allocated. by rewrite (proj2 (Z.eqb_neq _ _) Hp). }
  on_path ext argc argv; in_listed Hin; injection Hin as -> -> -> ->.
  all: split; [by apply Ha|].
  all: by eexists _, _, _.
Qed.

Lemma handle_untouched_by_adapter_witness :
  allocated (Example.returning 0) = <[model_of (Example.returning 0) := uninitialised]> ∅ /\
  exists h1 b f,
    ext_register_bmi_cem (Example.returning 0) (model_of (Example.returning 0))
      (allocated (Example.returning 0)) = Some h1 /\
    h1 !! model_of (Example.returning 0) = Some b /\
    get_component_name b = Fn f /\
    (<[4096%Z := MkBmi (Fn 10) (fun o => Fn (Example.impl o))]>
       (<[4096%Z := uninitialised]> ∅) : gmap Z (Bmi Example.Op))
    = nc_heap (ext_call (Example.returning 0) f (model_of (Example.returning 0)) h1).
Proof.
  apply (handle_untouched_by_adapter (Example.returning 0) 3 Example.argv
           4096 3 Example.argv).
  apply (list_elem_of_lookup_2 _ 5). reflexivity.
Defined.

(** ** Startup faults *)

(** X2 (an unbound name slot stops the run at startup).  If the registrar
    comes back with the handle live but its [get_component_name] slot not
    holding an implementation, null or still indeterminate, the run faults
    at the call through that slot: no callback has been invoked, only the
    banner has been printed and the server loop is not started. *)
Theorem unbound_name_slot_faults {Op : Type} (ext : Extern Op)
    (argc : Z) (argv : list (list byte))
    (h1 : gmap Z (Bmi Op)) (b : Bmi Op) :
  model_of ext <> NULL ->
  ext_register_bmi_cem ext (model_of ext) (allocated ext) = Some h1 ->
  h1 !! model_of ext = Some b ->
  bound (get_component_name b) = false ->
  run ext argc argv
  = Stopped (Faulted CallThroughUnboundSlot)
      (MkWorld h1 [Printf banner;
                   Malloc (sizeof_Bmi ext) (model_of ext);
                   RegisterBmiCem (model_of ext)]).
Proof.
  intros Hp Hr Hb Hu.
  on_path ext argc argv; agree; try done;
    match goal with
    | H : get_component_name b = Fn _ |- _ => rewrite H in Hu; discriminate Hu
    end.
Qed.

Lemma unbound_name_slot_faults_witness :
  run Scenario.null_name_slot 3 Example.argv
  = Stopped (Faulted CallThroughUnboundSlot)
      (MkWorld (<[4096%Z := MkBmi NullFn (fun o => Fn (Example.impl o))]>
                  (<[4096%Z := uninitialised]> ∅))
         [Printf banner; Malloc 512 4096; RegisterBmiCem 4096]).
Proof.
  apply (unbound_name_slot_faults Scenario.null_name_slot 3 Example.argv
           (<[4096%Z := MkBmi NullFn (fun o => Fn (Example.impl o))]>
              (<[4096%Z := uninitialised]> ∅))
           (MkBmi NullFn (fun o => Fn (Example.impl o))));
    [discriminate | reflexivity | reflexivity | reflexivity].
Defined.

(** The same fault when the registrar stores nothing at all: [main] does not
    clear the object it allocates, so the slot is still indeterminate. *)
Example idle_registrar_faults :
  run Scenario.idle_registrar 3 Example.argv
  = Stopped (Faulted CallThroughUnboundSlot)
      (MkWorld (<[4096%Z := uninitialised]> ∅)
         [Printf banner; Malloc 512 4096; RegisterBmiCem 4096]).
Proof. reflexivity. Qed.

(** ** The callback's status *)

(** X1 (the callback's status is not looked at).  [main] discards the value
    the call through [get_component_name] returns: replace the statuses the
    callbacks report by any others and the run is the same, step for step,
    with the same heap and the same outcome.  A callback that reports
    failure is treated exactly like one that reports success. *)
Theorem callback_status_ignored {Op : Type} (ext : Extern Op)
    (k : fnptr -> ptr -> gmap Z (Bmi Op) -> Z)
    (argc : Z) (argv : list (list byte)) :
  run (with_status k ext) argc argv = run ext argc argv.
Proof.
  unfold run, main, malloc, register_bmi_cem, load_get_component_name, call_slot.
  unfold mbind, M_bind. cbn [with_status BMI_MAX_COMPONENT_NAME sizeof_Bmi ext_malloc
                              ext_register_bmi_cem ext_call ext_run_bmi_server
                              nc_written nc_heap].
  reflexivity.
Qed.
